(** * TCP AHS congestion control (src/tcp_ahs.c): a shallow embedding

    The module is a table of callbacks that the host TCP stack invokes on a
    socket.  Every callback receives [struct sock *sk] and reaches two pieces
    of state through it: the host's [struct tcp_sock] (via [tcp_sk]) and the
    private congestion-control area, viewed as [struct ahs] (via
    [inet_csk_ca]).  The callbacks are embedded as computations in a state
    monad over that socket, one field store or load per C statement. *)

From Stdlib Require Import ZArith List Lia Bool Permutation.
From ExtLib Require Import Structures.Monad Structures.MonadState.
From ExtLib Require Import Data.Monads.StateMonad.
Import ListNotations.
Import MonadNotation.
Local Open Scope Z_scope.
Local Open Scope monad_scope.

(** ** Machine integers *)

(** The kernel's fixed-width integers are carried as [Z]; the width is made
    explicit where a conversion happens. *)
Definition u8 := Z.
Definition u32 := Z.
Definition s32 := Z.

Definition is_u32 (z : Z) : Prop := 0 <= z < 2 ^ 32.
Definition is_s32 (z : Z) : Prop := - 2 ^ 31 <= z < 2 ^ 31.

(** Implicit conversion of a value to [u32] on assignment. *)
Definition to_u32 (z : Z) : u32 := z mod 2 ^ 32.

(** The kernel's [min(x, y)] macro on two operands of one type. *)
Definition min (x y : Z) : Z := if x <? y then x else y.

(** ** Constants *)

(** [#define TCP_AHS_INIT_RTT 1000000], one second in microseconds. *)
Definition TCP_AHS_INIT_RTT : Z := 1000000.

(** [#define DEFAULT_AHS_WINDOW_SIZE 65000] *)
Definition DEFAULT_AHS_WINDOW_SIZE : Z := 65000.

(** ** Data model *)

(** [struct ahs].  The first four fields are the ones the source declares.

    Modelled from the spec: the field [ezs_en].  [tcp_ahs_cong_avoid] reads
    [ahs->ezs_en], a member that [struct ahs] does not declare and that no
    callback stores to; the specification's design notes ask for both fields
    to be kept distinct, so the record carries it as a fifth, independent
    member. *)
Record ahs : Type := mk_ahs {
  ahs_en : u8;
  if_cong : u8;
  rtt_min : u32;
  rtt : u32;
  ezs_en : u8
}.

(** The part of the host's [struct tcp_sock] that congestion control deals
    with: the congestion window and the slow-start threshold. *)
Record tcp_sock : Type := mk_tcp_sock {
  snd_cwnd : u32;
  snd_ssthresh : u32
}.

(** [struct sock], as far as this module can see it: [tcp_sk(sk)] is the
    projection [tp], [inet_csk_ca(sk)] the projection [ca]. *)
Record sock : Type := mk_sock {
  tp : tcp_sock;
  ca : ahs
}.

(** [enum tcp_ca_event] of the host header (its members as of the kernels
    whose callback signatures the module uses). *)
Inductive tcp_ca_event : Type :=
| CA_EVENT_TX_START
| CA_EVENT_CWND_RESTART
| CA_EVENT_COMPLETE_CWR
| CA_EVENT_LOSS
| CA_EVENT_ECN_NO_CE
| CA_EVENT_ECN_IS_CE
| CA_EVENT_DELAYED_ACK
| CA_EVENT_NON_DELAYED_ACK.

(** ** Callbacks as stateful computations *)

(** A callback body: a computation over the socket it was handed. *)
Definition Sk : Type -> Type := state sock.

(** Post-state and returned value of a callback run on [sk]. *)
Definition exec {A : Type} (m : Sk A) (sk : sock) : sock := execState m sk.
Definition eval {A : Type} (m : Sk A) (sk : sock) : A := evalState m sk.

Module Ahs.
(** Loads and stores through the pointer [ahs = inet_csk_ca(sk)]. *)
Definition load {A : Type} (field : ahs -> A) : Sk A :=
  sk <- get ;; ret (field (ca sk)).

Definition update (f : ahs -> ahs) : Sk unit :=
  sk <- get ;; put (mk_sock (tp sk) (f (ca sk))).

Definition store_ahs_en (v : u8) : Sk unit :=
  update (fun a => mk_ahs v (if_cong a) (rtt_min a) (rtt a) (ezs_en a)).
Definition store_if_cong (v : u8) : Sk unit :=
  update (fun a => mk_ahs (ahs_en a) v (rtt_min a) (rtt a) (ezs_en a)).
Definition store_rtt_min (v : u32) : Sk unit :=
  update (fun a => mk_ahs (ahs_en a) (if_cong a) v (rtt a) (ezs_en a)).
Definition store_rtt (v : u32) : Sk unit :=
  update (fun a => mk_ahs (ahs_en a) (if_cong a) (rtt_min a) v (ezs_en a)).
End Ahs.

Module Tp.
(** Stores through the pointer [tp = tcp_sk(sk)]. *)
Definition update (f : tcp_sock -> tcp_sock) : Sk unit :=
  sk <- get ;; put (mk_sock (f (tp sk)) (ca sk)).

Definition store_snd_cwnd (v : u32) : Sk unit :=
  update (fun t => mk_tcp_sock v (snd_ssthresh t)).
End Tp.

(** [if (c) stmt;] with no else branch. *)
Definition when (c : bool) (stmt : Sk unit) : Sk unit :=
  if c then stmt else ret tt.

(** [tcp_ahs_init]: four stores into the private area. *)
Definition tcp_ahs_init : Sk unit :=
  Ahs.store_ahs_en 1 ;;
  Ahs.store_if_cong 0 ;;
  Ahs.store_rtt_min TCP_AHS_INIT_RTT ;;
  Ahs.store_rtt TCP_AHS_INIT_RTT.

(** [tcp_ahs_pkts_acked(sk, cnt, rtt_us)]: record a positive sample, refresh
    the running minimum, force the window. *)
Definition tcp_ahs_pkts_acked (cnt : u32) (rtt_us : s32) : Sk unit :=
  when (0 <? rtt_us) (Ahs.store_rtt (to_u32 rtt_us)) ;;
  m <- Ahs.load rtt_min ;;
  r <- Ahs.load rtt ;;
  Ahs.store_rtt_min (min m r) ;;
  Tp.store_snd_cwnd DEFAULT_AHS_WINDOW_SIZE.

(** [tcp_ahs_undo_cwnd] *)
Definition tcp_ahs_undo_cwnd : Sk u32 :=
  ret DEFAULT_AHS_WINDOW_SIZE.

(** [tcp_ahs_state(sk, ca_state)] *)
Definition tcp_ahs_state (ca_state : u8) : Sk unit :=
  Ahs.store_ahs_en 1.

(** [tcp_ahs_cwnd_event(sk, event)] *)
Definition tcp_ahs_cwnd_event (event : tcp_ca_event) : Sk unit :=
  Tp.store_snd_cwnd DEFAULT_AHS_WINDOW_SIZE.

(** [tcp_ahs_ssthresh] *)
Definition tcp_ahs_ssthresh : Sk u32 :=
  ret DEFAULT_AHS_WINDOW_SIZE.

Section Baseline.

(** The host's Veno congestion avoidance, [tcp_veno_cong_avoid(sk, ack,
    acked)]: defined outside this module, hence a parameter.  It is handed
    the whole socket. *)
Variable tcp_veno_cong_avoid : u32 -> u32 -> Sk unit.

(** [tcp_ahs_cong_avoid(sk, ack, acked)].  The test is on [ezs_en], as in
    the source. *)
Definition tcp_ahs_cong_avoid (ack acked : u32) : Sk unit :=
  e <- Ahs.load ezs_en ;;
  if e =? 0 then
    tcp_veno_cong_avoid ack acked
  else
    Tp.store_snd_cwnd DEFAULT_AHS_WINDOW_SIZE.

End Baseline.

(** ** The callback table and sequences of callbacks *)

(** One invocation by the host of a member of [tcp_ahs] (the
    [struct tcp_congestion_ops] the module registers) other than [.init]. *)
Inductive ops_call : Type :=
| Call_ssthresh
| Call_cong_avoid (ack acked : u32)
| Call_cwnd_event (event : tcp_ca_event)
| Call_pkts_acked (cnt : u32) (rtt_us : s32)
| Call_set_state (ca_state : u8)
| Call_undo_cwnd.

Section Dispatch.

Variable tcp_veno_cong_avoid : u32 -> u32 -> Sk unit.

(** The table [tcp_ahs]: which function each member points to.  A returned
    threshold or window is the host's to use; the socket is all that is
    carried to the next callback. *)
Definition dispatch (c : ops_call) : Sk unit :=
  match c with
  | Call_ssthresh => _ <- tcp_ahs_ssthresh ;; ret tt
  | Call_cong_avoid ack acked =>
      tcp_ahs_cong_avoid tcp_veno_cong_avoid ack acked
  | Call_cwnd_event event => tcp_ahs_cwnd_event event
  | Call_pkts_acked cnt rtt_us => tcp_ahs_pkts_acked cnt rtt_us
  | Call_set_state ca_state => tcp_ahs_state ca_state
  | Call_undo_cwnd => _ <- tcp_ahs_undo_cwnd ;; ret tt
  end.

(** The host invoking callbacks one after the other on one socket. *)
Fixpoint run (cs : list ops_call) : Sk unit :=
  match cs with
  | [] => ret tt
  | c :: cs' => dispatch c ;; run cs'
  end.

(** A connection's life: [.init] first, then the calls [cs]. *)
Definition connection (cs : list ops_call) : Sk unit :=
  tcp_ahs_init ;; run cs.

End Dispatch.

(** A run of [.pkts_acked] calls only, each given as [(cnt, rtt_us)]. *)
Fixpoint acks (l : list (u32 * s32)) : Sk unit :=
  match l with
  | [] => ret tt
  | (cnt, rtt_us) :: l' => tcp_ahs_pkts_acked cnt rtt_us ;; acks l'
  end.

(** The smallest of [base] and the members of [l]. *)
Definition list_min (base : Z) (l : list Z) : Z := fold_right Z.min base l.

(** The minimum of the initial estimate and every strictly positive sample,
    as the specification words it. *)
Definition min_positive_sample (samples : list s32) : Z :=
  list_min TCP_AHS_INIT_RTT (filter (fun r => 0 <? r) samples).

(** The value [.pkts_acked] leaves in [rtt]: the sample when it is positive,
    the old value otherwise. *)
Definition sampled_rtt (rtt_us : s32) (a : ahs) : u32 :=
  if 0 <? rtt_us then to_u32 rtt_us else rtt a.

(** The baseline leaves the private area of this module alone: it works on
    the host's window fields only. *)
Definition baseline_frame (baseline : u32 -> u32 -> Sk unit) : Prop :=
  forall ack acked sk, ca (exec (baseline ack acked) sk) = ca sk.

(** ** Concrete sockets and a concrete baseline, for running the model *)

(** A socket whose private area is all zero bytes, as the host allocates it,
    with an initial window of 10 segments. *)
Definition fresh_sock : sock :=
  mk_sock (mk_tcp_sock 10 2147483647) (mk_ahs 0 0 0 0 0).

(** A socket on which [.init] never ran and whose private area holds
    leftovers. *)
Definition stale_sock : sock :=
  mk_sock (mk_tcp_sock 3 7) (mk_ahs 0 1 5 2 1).

(** A stand-in baseline that opens the window by the number of segments
    acknowledged (slow start without a threshold). *)
Definition additive_cong_avoid (ack acked : u32) : Sk unit :=
  sk <- get ;;
  Tp.store_snd_cwnd (to_u32 (snd_cwnd (tp sk) + acked)).

(** A stand-in baseline that does nothing. *)
Definition idle_cong_avoid (ack acked : u32) : Sk unit := ret tt.


(** The acknowledgement scenario of the specification: samples of 50 ms and
    20 ms, then a call without a valid sample. *)
Definition sample_acks : list (u32 * s32) :=
  [(1, 50000); (2, 20000); (1, -1)].

(** A connection exercising every member of the table. *)
Definition sample_trace : list ops_call :=
  [Call_pkts_acked 1 50000; Call_cong_avoid 100 1; Call_set_state 4;
   Call_cwnd_event CA_EVENT_LOSS; Call_ssthresh; Call_pkts_acked 1 (-1);
   Call_undo_cwnd; Call_cong_avoid 200 2; Call_pkts_acked 3 20000].

(** ** Reading a sequence of callbacks *)

(** The samples a sequence of callbacks hands to [.pkts_acked], in order. *)
Fixpoint samples_of (cs : list ops_call) : list s32 :=
  match cs with
  | [] => []
  | Call_pkts_acked _ rtt_us :: cs' => rtt_us :: samples_of cs'
  | _ :: cs' => samples_of cs'
  end.

(** The last strictly positive member of [samples], [base] when there is
    none. *)
Definition last_positive_sample (base : Z) (samples : list s32) : Z :=
  fold_left (fun acc r => if 0 <? r then r else acc) samples base.

(** The members of the table whose function has a store to [tp->snd_cwnd]
    on some path. *)
Definition writes_window (c : ops_call) : bool :=
  match c with
  | Call_cong_avoid _ _ | Call_cwnd_event _ | Call_pkts_acked _ _ => true
  | Call_ssthresh | Call_set_state _ | Call_undo_cwnd => false
  end.

(** * Properties *)

(** ** Running the monad *)

Lemma exec_bind (A B : Type) (m : Sk A) (k : A -> Sk B) (sk : sock) :
  exec (bind m k) sk = exec (k (eval m sk)) (exec m sk).
Proof.
  unfold exec, eval, execState, evalState; simpl.
  destruct (runState m sk); reflexivity.
Qed.

Lemma exec_ret (A : Type) (a : A) (sk : sock) : exec (ret a) sk = sk.
Proof. reflexivity. Qed.

Lemma min_is_Zmin (x y : Z) : min x y = Z.min x y.
Proof. unfold min. destruct (Z.ltb_spec x y); lia. Qed.

Lemma to_u32_small (z : Z) : is_u32 z -> to_u32 z = z.
Proof. intros H. apply Z.mod_small. exact H. Qed.

Lemma s32_positive_is_u32 (z : Z) : is_s32 z -> 0 < z -> is_u32 z.
Proof. unfold is_s32, is_u32. lia. Qed.

(** ** What each callback leaves behind *)

Lemma tcp_ahs_init_exec (sk : sock) :
  exec tcp_ahs_init sk =
  mk_sock (tp sk)
          (mk_ahs 1 0 TCP_AHS_INIT_RTT TCP_AHS_INIT_RTT (ezs_en (ca sk))).
Proof. reflexivity. Qed.

Lemma tcp_ahs_pkts_acked_exec (cnt : u32) (rtt_us : s32) (sk : sock) :
  exec (tcp_ahs_pkts_acked cnt rtt_us) sk =
  mk_sock (mk_tcp_sock DEFAULT_AHS_WINDOW_SIZE (snd_ssthresh (tp sk)))
          (mk_ahs (ahs_en (ca sk)) (if_cong (ca sk))
                  (min (rtt_min (ca sk)) (sampled_rtt rtt_us (ca sk)))
                  (sampled_rtt rtt_us (ca sk))
                  (ezs_en (ca sk))).
Proof.
  unfold tcp_ahs_pkts_acked, when, sampled_rtt.
  destruct (0 <? rtt_us); reflexivity.
Qed.

Lemma tcp_ahs_state_exec (ca_state : u8) (sk : sock) :
  exec (tcp_ahs_state ca_state) sk =
  mk_sock (tp sk)
          (mk_ahs 1 (if_cong (ca sk)) (rtt_min (ca sk)) (rtt (ca sk))
                  (ezs_en (ca sk))).
Proof. reflexivity. Qed.

Lemma tcp_ahs_cwnd_event_exec (event : tcp_ca_event) (sk : sock) :
  exec (tcp_ahs_cwnd_event event) sk =
  mk_sock (mk_tcp_sock DEFAULT_AHS_WINDOW_SIZE (snd_ssthresh (tp sk))) (ca sk).
Proof. reflexivity. Qed.

Section CongAvoid.

Variable tcp_veno_cong_avoid : u32 -> u32 -> Sk unit.

(** The branch [tcp_ahs_cong_avoid] takes is decided by [ezs_en] alone. *)
Lemma tcp_ahs_cong_avoid_veno (ack acked : u32) (sk : sock) :
  ezs_en (ca sk) = 0 ->
  runState (tcp_ahs_cong_avoid tcp_veno_cong_avoid ack acked) sk =
  runState (tcp_veno_cong_avoid ack acked) sk.
Proof.
  intros H. unfold tcp_ahs_cong_avoid; simpl. rewrite H. reflexivity.
Qed.

Lemma tcp_ahs_cong_avoid_static (ack acked : u32) (sk : sock) :
  ezs_en (ca sk) <> 0 ->
  runState (tcp_ahs_cong_avoid tcp_veno_cong_avoid ack acked) sk =
  (tt, mk_sock (mk_tcp_sock DEFAULT_AHS_WINDOW_SIZE (snd_ssthresh (tp sk)))
               (ca sk)).
Proof.
  intros H. unfold tcp_ahs_cong_avoid; simpl.
  destruct (Z.eqb_spec (ezs_en (ca sk)) 0) as [E | _]; [contradiction|].
  reflexivity.
Qed.

Lemma tcp_ahs_cong_avoid_ca (ack acked : u32) (sk : sock) :
  baseline_frame tcp_veno_cong_avoid ->
  ca (exec (tcp_ahs_cong_avoid tcp_veno_cong_avoid ack acked) sk) = ca sk.
Proof.
  intros F. unfold exec, execState.
  destruct (Z.eq_dec (ezs_en (ca sk)) 0) as [E | E].
  - rewrite tcp_ahs_cong_avoid_veno by exact E. apply F.
  - rewrite tcp_ahs_cong_avoid_static by exact E. reflexivity.
Qed.

End CongAvoid.

(** ** The pure callbacks *)

(** C4.  On every socket, initialised or not, [tcp_ahs_ssthresh] and
    [tcp_ahs_undo_cwnd] both return 65000 and hand the socket back exactly as
    they got it (private area and window fields alike). *)
Theorem ssthresh_undo_cwnd_constant (sk : sock) :
  runState tcp_ahs_ssthresh sk = (65000, sk) /\
  runState tcp_ahs_undo_cwnd sk = (65000, sk).
Proof. split; reflexivity. Qed.

(** The same on a socket [.init] never touched. *)
Example ssthresh_on_stale_sock :
  runState tcp_ahs_ssthresh stale_sock = (65000, stale_sock).
Proof. reflexivity. Qed.

(** ** Initialisation *)

(** C5.  After [tcp_ahs_init] on any socket, the private area has
    [ahs_en = 1], [if_cong = 0] and [rtt_min = rtt = 1000000] microseconds
    (one second, [TCP_AHS_INIT_RTT]). *)
Theorem tcp_ahs_init_post (sk : sock) :
  let a := ca (exec tcp_ahs_init sk) in
  ahs_en a = 1 /\ if_cong a = 0 /\
  rtt_min a = 1000000 /\ rtt a = 1000000 /\ TCP_AHS_INIT_RTT = 1000000.
Proof. cbv zeta. rewrite tcp_ahs_init_exec. repeat split. Qed.

(** ** Acknowledgements *)

(** C8.  A call of [tcp_ahs_pkts_acked] with [rtt_us <= 0] leaves [rtt] at
    the value it had before the call. *)
Theorem pkts_acked_keeps_rtt (cnt : u32) (rtt_us : s32) (sk : sock) :
  rtt_us <= 0 ->
  rtt (ca (exec (tcp_ahs_pkts_acked cnt rtt_us) sk)) = rtt (ca sk).
Proof.
  intros H. rewrite tcp_ahs_pkts_acked_exec. simpl. unfold sampled_rtt.
  destruct (Z.ltb_spec 0 rtt_us); [lia | reflexivity].
Qed.

Lemma pkts_acked_keeps_rtt_witness :
  -1 <= 0 /\
  rtt (ca (exec (tcp_ahs_pkts_acked 4 (-1)) stale_sock)) = rtt (ca stale_sock).
Proof.
  split; [lia | apply (pkts_acked_keeps_rtt 4 (-1) stale_sock); lia].
Defined.

(** C10.  [tcp_ahs_pkts_acked] does not depend on [cnt]: from one socket and
    with one sample, two calls with different counts end in the same socket
    (private area and window). *)
Theorem pkts_acked_ignores_cnt (cnt1 cnt2 : u32) (rtt_us : s32) (sk : sock) :
  runState (tcp_ahs_pkts_acked cnt1 rtt_us) sk =
  runState (tcp_ahs_pkts_acked cnt2 rtt_us) sk.
Proof. reflexivity. Qed.

(** After a positive in-range sample [rtt] holds that sample. *)
Lemma sampled_rtt_positive (rtt_us : s32) (a : ahs) :
  is_s32 rtt_us -> 0 < rtt_us -> sampled_rtt rtt_us a = rtt_us.
Proof.
  intros R P. unfold sampled_rtt.
  destruct (Z.ltb_spec 0 rtt_us); [| lia].
  apply to_u32_small, s32_positive_is_u32; assumption.
Qed.

Lemma sampled_rtt_nonpositive (rtt_us : s32) (a : ahs) :
  rtt_us <= 0 -> sampled_rtt rtt_us a = rtt a.
Proof.
  intros P. unfold sampled_rtt. destruct (Z.ltb_spec 0 rtt_us); [lia | easy].
Qed.

(** [.pkts_acked] always ends with the minimum below the last sample. *)
Lemma pkts_acked_orders_rtt (cnt : u32) (rtt_us : s32) (sk : sock) :
  let a := ca (exec (tcp_ahs_pkts_acked cnt rtt_us) sk) in
  rtt_min a <= rtt a.
Proof.
  cbv zeta. rewrite tcp_ahs_pkts_acked_exec. simpl. rewrite min_is_Zmin. lia.
Qed.

(** The minimum never grows under [.pkts_acked]. *)
Lemma pkts_acked_rtt_min_nonincreasing (cnt : u32) (rtt_us : s32) (sk : sock) :
  rtt_min (ca (exec (tcp_ahs_pkts_acked cnt rtt_us) sk)) <= rtt_min (ca sk).
Proof.
  rewrite tcp_ahs_pkts_acked_exec. simpl. rewrite min_is_Zmin. lia.
Qed.

Lemma list_min_absorb (m r : Z) (l : list Z) :
  list_min (Z.min m r) l = Z.min r (list_min m l).
Proof.
  induction l as [| x l IH]; simpl; [lia |].
  fold (list_min (Z.min m r) l). fold (list_min m l). rewrite IH. lia.
Qed.

(** The running minimum over a run of acknowledgements, from any socket whose
    minimum is not above its last sample. *)
Lemma acks_rtt_min (l : list (u32 * s32)) : forall sk : sock,
  Forall is_s32 (map snd l) ->
  rtt_min (ca sk) <= rtt (ca sk) ->
  rtt_min (ca (exec (acks l) sk)) =
  list_min (rtt_min (ca sk)) (filter (fun r => 0 <? r) (map snd l)).
Proof.
  induction l as [| [cnt r] l IH]; intros sk R O; [reflexivity |].
  inversion R as [| ? ? Rr Rl]; subst.
  cbn [acks]. rewrite exec_bind.
  rewrite IH; [| exact Rl | apply pkts_acked_orders_rtt].
  rewrite tcp_ahs_pkts_acked_exec. cbn [ca rtt_min map snd filter].
  rewrite min_is_Zmin.
  destruct (Z.ltb_spec 0 r) as [P | P].
  - rewrite sampled_rtt_positive by assumption.
    rewrite list_min_absorb. reflexivity.
  - rewrite sampled_rtt_nonpositive by assumption.
    f_equal. lia.
Qed.

(** C3.  After [tcp_ahs_init] and any finite run of [tcp_ahs_pkts_acked]
    calls (samples being [s32] values), [rtt_min] is the minimum of
    [TCP_AHS_INIT_RTT] and all strictly positive samples of the run. *)
Theorem rtt_min_is_min_positive_sample (l : list (u32 * s32)) (sk : sock) :
  Forall is_s32 (map snd l) ->
  rtt_min (ca (exec (tcp_ahs_init ;; acks l) sk)) =
  min_positive_sample (map snd l).
Proof.
  intros R. rewrite exec_bind, acks_rtt_min.
  - rewrite tcp_ahs_init_exec. reflexivity.
  - exact R.
  - rewrite tcp_ahs_init_exec. simpl. lia.
Qed.

Lemma rtt_min_is_min_positive_sample_witness :
  Forall is_s32 (map snd sample_acks) /\
  rtt_min (ca (exec (tcp_ahs_init ;; acks sample_acks) fresh_sock)) =
  min_positive_sample (map snd sample_acks).
Proof.
  assert (R : Forall is_s32 (map snd sample_acks))
    by (repeat constructor; unfold is_s32; simpl; lia).
  split; [exact R |].
  exact (rtt_min_is_min_positive_sample sample_acks fresh_sock R).
Defined.

(** The scenario itself: the minimum and the last sample end at 20 ms, the
    window at 65000. *)
Example sample_acks_run :
  min_positive_sample (map snd sample_acks) = 20000 /\
  exec (tcp_ahs_init ;; acks sample_acks) fresh_sock =
  mk_sock (mk_tcp_sock 65000 2147483647) (mk_ahs 1 0 20000 20000 0).
Proof. split; reflexivity. Qed.

(** ** Window forcing *)

(** [.pkts_acked] and [.cwnd_event] pin the window whatever the socket holds;
    [.cong_avoid] does so when [ezs_en] is set. *)
Lemma pkts_acked_forces_window (cnt : u32) (rtt_us : s32) (sk : sock) :
  snd_cwnd (tp (exec (tcp_ahs_pkts_acked cnt rtt_us) sk)) = 65000.
Proof. rewrite tcp_ahs_pkts_acked_exec. reflexivity. Qed.

Lemma cwnd_event_forces_window (event : tcp_ca_event) (sk : sock) :
  snd_cwnd (tp (exec (tcp_ahs_cwnd_event event) sk)) = 65000.
Proof. reflexivity. Qed.

Lemma cong_avoid_forces_window
  (veno : u32 -> u32 -> Sk unit) (ack acked : u32) (sk : sock) :
  ezs_en (ca sk) <> 0 ->
  snd_cwnd (tp (exec (tcp_ahs_cong_avoid veno ack acked) sk)) = 65000.
Proof.
  intros E. unfold exec, execState.
  rewrite tcp_ahs_cong_avoid_static by exact E. reflexivity.
Qed.

(** C1.  The branch of [tcp_ahs_cong_avoid] does not follow [ahs_en].  On a
    freshly initialised socket ([ahs_en = 1], [ezs_en = 0]) the call is handed
    to the baseline, whatever the baseline is; on a socket with [ahs_en = 0]
    and [ezs_en = 1] the baseline is not consulted and the window is set to
    65000. *)
Theorem cong_avoid_branch_not_on_ahs_en :
  (ahs_en (ca (exec tcp_ahs_init fresh_sock)) = 1 /\
   forall (veno : u32 -> u32 -> Sk unit) (ack acked : u32),
     runState (tcp_ahs_cong_avoid veno ack acked)
              (exec tcp_ahs_init fresh_sock) =
     runState (veno ack acked) (exec tcp_ahs_init fresh_sock)) /\
  (ahs_en (ca stale_sock) = 0 /\
   forall (veno : u32 -> u32 -> Sk unit) (ack acked : u32),
     runState (tcp_ahs_cong_avoid veno ack acked) stale_sock =
     (tt, mk_sock (mk_tcp_sock 65000 7) (ca stale_sock))).
Proof.
  split; (split; [reflexivity | intros veno ack acked]).
  - apply tcp_ahs_cong_avoid_veno. reflexivity.
  - apply tcp_ahs_cong_avoid_static. discriminate.
Qed.

(** C2.  With [ahs_en = 1] the window after [tcp_ahs_cong_avoid] need not be
    65000: on a freshly initialised socket with window 10 it is what the
    baseline leaves (10 for a baseline that does nothing, 11 for one that adds
    the acknowledged segment), while [.pkts_acked] and [.cwnd_event] on the
    same socket give 65000. *)
Theorem cong_avoid_enabled_window_not_forced :
  let sk := exec tcp_ahs_init fresh_sock in
  ahs_en (ca sk) = 1 /\
  snd_cwnd (tp (exec (tcp_ahs_cong_avoid idle_cong_avoid 100 1) sk)) = 10 /\
  snd_cwnd (tp (exec (tcp_ahs_cong_avoid additive_cong_avoid 100 1) sk)) = 11 /\
  snd_cwnd (tp (exec (tcp_ahs_pkts_acked 1 50000) sk)) = 65000 /\
  snd_cwnd (tp (exec (tcp_ahs_cwnd_event CA_EVENT_LOSS) sk)) = 65000.
Proof. cbv zeta. repeat split. Qed.

(** ** Invariants of a connection *)

Section Reachable.

Variable tcp_veno_cong_avoid : u32 -> u32 -> Sk unit.
Hypothesis veno_frame : baseline_frame tcp_veno_cong_avoid.

Lemma run_cons (c : ops_call) (cs : list ops_call) (sk : sock) :
  exec (run tcp_veno_cong_avoid (c :: cs)) sk =
  exec (run tcp_veno_cong_avoid cs) (exec (dispatch tcp_veno_cong_avoid c) sk).
Proof. cbn [run]. apply exec_bind. Qed.

(** A property every callback preserves holds all along a run. *)
Lemma run_preserves (P : sock -> Prop) :
  (forall c sk, P sk -> P (exec (dispatch tcp_veno_cong_avoid c) sk)) ->
  forall cs sk, P sk -> P (exec (run tcp_veno_cong_avoid cs) sk).
Proof.
  intros Hstep cs. induction cs as [| c cs IH]; intros sk HP.
  - exact HP.
  - rewrite run_cons. apply IH, Hstep, HP.
Qed.

Lemma connection_preserves (P : sock -> Prop) :
  (forall sk, P (exec tcp_ahs_init sk)) ->
  (forall c sk, P sk -> P (exec (dispatch tcp_veno_cong_avoid c) sk)) ->
  forall cs sk, P (exec (connection tcp_veno_cong_avoid cs) sk).
Proof.
  intros Hinit Hstep cs sk. unfold connection. rewrite exec_bind.
  apply run_preserves; [exact Hstep | apply Hinit].
Qed.

(** The private area after one callback, member by member. *)
Lemma step_ca (c : ops_call) (sk : sock) :
  ca (exec (dispatch tcp_veno_cong_avoid c) sk) =
  match c with
  | Call_pkts_acked _ rtt_us =>
      mk_ahs (ahs_en (ca sk)) (if_cong (ca sk))
             (min (rtt_min (ca sk)) (sampled_rtt rtt_us (ca sk)))
             (sampled_rtt rtt_us (ca sk)) (ezs_en (ca sk))
  | Call_set_state _ =>
      mk_ahs 1 (if_cong (ca sk)) (rtt_min (ca sk)) (rtt (ca sk))
             (ezs_en (ca sk))
  | _ => ca sk
  end.
Proof.
  destruct c; cbn [dispatch].
  - reflexivity.
  - apply tcp_ahs_cong_avoid_ca, veno_frame.
  - reflexivity.
  - rewrite tcp_ahs_pkts_acked_exec. reflexivity.
  - reflexivity.
  - reflexivity.
Qed.

(** C6.  Every callback keeps [rtt_min <= rtt], and the relation holds in
    every socket state reached from [tcp_ahs_init] by any sequence of
    callbacks (the baseline leaving the private area alone). *)
Theorem rtt_min_le_rtt_invariant :
  (forall c sk,
     rtt_min (ca sk) <= rtt (ca sk) ->
     rtt_min (ca (exec (dispatch tcp_veno_cong_avoid c) sk)) <=
     rtt (ca (exec (dispatch tcp_veno_cong_avoid c) sk))) /\
  (forall cs sk0,
     rtt_min (ca (exec (connection tcp_veno_cong_avoid cs) sk0)) <=
     rtt (ca (exec (connection tcp_veno_cong_avoid cs) sk0))).
Proof.
  assert (Hstep : forall c sk,
     rtt_min (ca sk) <= rtt (ca sk) ->
     rtt_min (ca (exec (dispatch tcp_veno_cong_avoid c) sk)) <=
     rtt (ca (exec (dispatch tcp_veno_cong_avoid c) sk))).
  { intros c sk H. rewrite step_ca.
    destruct c; simpl; try exact H. rewrite min_is_Zmin. lia. }
  split; [exact Hstep |].
  apply (connection_preserves (fun sk => rtt_min (ca sk) <= rtt (ca sk))).
  - intros sk. rewrite tcp_ahs_init_exec. simpl. lia.
  - exact Hstep.
Qed.

(** C7.  [tcp_ahs_state] sets [ahs_en] to 1 whatever it was and whatever the
    phase; every callback keeps [ahs_en = 1]; hence [ahs_en = 1] in every
    socket state reached from [tcp_ahs_init] by any sequence of callbacks
    (the baseline leaving the private area alone). *)
Theorem ahs_en_invariant :
  (forall ca_state sk, ahs_en (ca (exec (tcp_ahs_state ca_state) sk)) = 1) /\
  (forall c sk,
     ahs_en (ca sk) = 1 ->
     ahs_en (ca (exec (dispatch tcp_veno_cong_avoid c) sk)) = 1) /\
  (forall cs sk0,
     ahs_en (ca (exec (connection tcp_veno_cong_avoid cs) sk0)) = 1).
Proof.
  assert (Hstep : forall c sk,
     ahs_en (ca sk) = 1 ->
     ahs_en (ca (exec (dispatch tcp_veno_cong_avoid c) sk)) = 1).
  { intros c sk H. rewrite step_ca. destruct c; simpl; congruence. }
  split; [intros ca_state sk; rewrite tcp_ahs_state_exec; reflexivity |].
  split; [exact Hstep |].
  apply (connection_preserves (fun sk => ahs_en (ca sk) = 1)).
  - intros sk. rewrite tcp_ahs_init_exec. reflexivity.
  - exact Hstep.
Qed.

(** C9.  No callback changes [if_cong]; [tcp_ahs_init] sets it to 0, so it is
    0 in every socket state reached from [tcp_ahs_init] by any sequence of
    callbacks (the baseline leaving the private area alone). *)
Theorem if_cong_never_written :
  (forall c sk,
     if_cong (ca (exec (dispatch tcp_veno_cong_avoid c) sk)) =
     if_cong (ca sk)) /\
  (forall cs sk0,
     if_cong (ca (exec (connection tcp_veno_cong_avoid cs) sk0)) = 0).
Proof.
  assert (Hstep : forall c sk,
     if_cong (ca (exec (dispatch tcp_veno_cong_avoid c) sk)) =
     if_cong (ca sk)).
  { intros c sk. rewrite step_ca. destruct c; reflexivity. }
  split; [exact Hstep |].
  apply (connection_preserves (fun sk => if_cong (ca sk) = 0)).
  - intros sk. rewrite tcp_ahs_init_exec. reflexivity.
  - intros c sk H. rewrite Hstep. exact H.
Qed.

End Reachable.

(** The stand-in baselines write the window only, so the invariants apply to
    connections that use them. *)
Lemma rtt_min_le_rtt_invariant_witness :
  baseline_frame additive_cong_avoid /\
  rtt_min (ca (exec (connection additive_cong_avoid sample_trace) fresh_sock))
  <= rtt (ca (exec (connection additive_cong_avoid sample_trace) fresh_sock)).
Proof.
  assert (F : baseline_frame additive_cong_avoid)
    by (intros ack acked sk; reflexivity).
  split; [exact F |].
  exact (proj2 (rtt_min_le_rtt_invariant additive_cong_avoid F)
               sample_trace fresh_sock).
Defined.

Lemma ahs_en_invariant_witness :
  baseline_frame additive_cong_avoid /\
  ahs_en (ca (exec (connection additive_cong_avoid sample_trace) fresh_sock))
  = 1.
Proof.
  assert (F : baseline_frame additive_cong_avoid)
    by (intros ack acked sk; reflexivity).
  split; [exact F |].
  exact (proj2 (proj2 (ahs_en_invariant additive_cong_avoid F))
               sample_trace fresh_sock).
Defined.

Lemma if_cong_never_written_witness :
  baseline_frame idle_cong_avoid /\
  if_cong (ca (exec (connection idle_cong_avoid sample_trace) stale_sock)) = 0.
Proof.
  assert (F : baseline_frame idle_cong_avoid)
    by (intros ack acked sk; reflexivity).
  split; [exact F |].
  exact (proj2 (if_cong_never_written idle_cong_avoid F)
               sample_trace stale_sock).
Defined.

(** The sample connection, run: the baseline is consulted twice (the window
    ends at 65000 all the same, forced by the last acknowledgement). *)
Example sample_trace_run :
  exec (connection additive_cong_avoid sample_trace) fresh_sock =
  mk_sock (mk_tcp_sock 65000 2147483647) (mk_ahs 1 0 20000 20000 0).
Proof. reflexivity. Qed.

(** The loss scenario of the specification: after [.init] and a loss event the
    threshold reported is 65000. *)
Example loss_then_ssthresh :
  eval (tcp_ahs_init ;; tcp_ahs_cwnd_event CA_EVENT_LOSS ;; tcp_ahs_ssthresh)
       fresh_sock = 65000.
Proof. reflexivity. Qed.

(** * Beyond single callbacks: whole sequences *)

(** ** Sequencing *)

Lemma run_app (veno : u32 -> u32 -> Sk unit) (cs1 cs2 : list ops_call) :
  forall sk : sock,
  exec (run veno (cs1 ++ cs2)) sk = exec (run veno cs2) (exec (run veno cs1) sk).
Proof.
  induction cs1 as [| c cs1 IH]; intros sk; [reflexivity |].
  rewrite <- app_comm_cons, !run_cons. apply IH.
Qed.

Lemma min_idempotent_right (m x : Z) : min (min m x) x = min m x.
Proof. rewrite !min_is_Zmin. lia. Qed.

(** ** Acknowledgements, one call at a time *)

(** X1.  A call of [tcp_ahs_pkts_acked] with a positive [s32] sample leaves
    exactly that sample in [rtt], whatever [rtt] held. *)
Theorem pkts_acked_records_sample (cnt : u32) (rtt_us : s32) (sk : sock) :
  is_s32 rtt_us -> 0 < rtt_us ->
  rtt (ca (exec (tcp_ahs_pkts_acked cnt rtt_us) sk)) = rtt_us.
Proof.
  intros R P. rewrite tcp_ahs_pkts_acked_exec. cbn [ca rtt].
  apply sampled_rtt_positive; assumption.
Qed.

Lemma pkts_acked_records_sample_witness :
  is_s32 2147483647 /\ 0 < 2147483647 /\
  rtt (ca (exec (tcp_ahs_pkts_acked 1 2147483647) stale_sock)) = 2147483647.
Proof.
  assert (R : is_s32 2147483647) by (unfold is_s32; lia).
  assert (P : 0 < 2147483647) by lia.
  split; [exact R | split; [exact P |]].
  exact (pkts_acked_records_sample 1 2147483647 stale_sock R P).
Defined.

(** X2.  A call of [tcp_ahs_pkts_acked] without a valid sample
    ([rtt_us <= 0]) on a socket whose minimum is not above its last sample
    leaves the whole private area as it was: only the window is written. *)
Theorem pkts_acked_no_sample_frame (cnt : u32) (rtt_us : s32) (sk : sock) :
  rtt_us <= 0 -> rtt_min (ca sk) <= rtt (ca sk) ->
  ca (exec (tcp_ahs_pkts_acked cnt rtt_us) sk) = ca sk.
Proof.
  intros N O. rewrite tcp_ahs_pkts_acked_exec. cbn [ca].
  rewrite sampled_rtt_nonpositive by exact N.
  rewrite min_is_Zmin, Z.min_l by exact O.
  destruct (ca sk); reflexivity.
Qed.

Lemma pkts_acked_no_sample_frame_witness :
  0 <= 0 /\
  rtt_min (ca (exec tcp_ahs_init fresh_sock)) <=
  rtt (ca (exec tcp_ahs_init fresh_sock)) /\
  ca (exec (tcp_ahs_pkts_acked 7 0) (exec tcp_ahs_init fresh_sock)) =
  ca (exec tcp_ahs_init fresh_sock).
Proof.
  assert (N : 0 <= 0) by lia.
  assert (O : rtt_min (ca (exec tcp_ahs_init fresh_sock)) <=
              rtt (ca (exec tcp_ahs_init fresh_sock))) by (simpl; lia).
  split; [exact N | split; [exact O |]].
  exact (pkts_acked_no_sample_frame 7 0 (exec tcp_ahs_init fresh_sock) N O).
Defined.

(** X3.  On a socket whose minimum is above its last sample (possible only
    before [.init]), a call without a valid sample still lowers [rtt_min],
    to the stale [rtt]. *)
Theorem pkts_acked_no_sample_lowers_stale_min
  (cnt : u32) (rtt_us : s32) (sk : sock) :
  rtt_us <= 0 -> rtt (ca sk) < rtt_min (ca sk) ->
  rtt_min (ca (exec (tcp_ahs_pkts_acked cnt rtt_us) sk)) = rtt (ca sk).
Proof.
  intros N O. rewrite tcp_ahs_pkts_acked_exec. cbn [ca rtt_min].
  rewrite sampled_rtt_nonpositive by exact N.
  rewrite min_is_Zmin. lia.
Qed.

Lemma pkts_acked_no_sample_lowers_stale_min_witness :
  -5 <= 0 /\ rtt (ca stale_sock) < rtt_min (ca stale_sock) /\
  rtt_min (ca (exec (tcp_ahs_pkts_acked 1 (-5)) stale_sock)) =
  rtt (ca stale_sock).
Proof.
  assert (N : -5 <= 0) by lia.
  assert (O : rtt (ca stale_sock) < rtt_min (ca stale_sock)) by (simpl; lia).
  split; [exact N | split; [exact O |]].
  exact (pkts_acked_no_sample_lowers_stale_min 1 (-5) stale_sock N O).
Defined.

(** X4.  Repeating [tcp_ahs_pkts_acked] with the same sample changes nothing
    more: the second call leaves the socket the first one produced, for any
    sample and any counts. *)
Theorem pkts_acked_idempotent (cnt1 cnt2 : u32) (rtt_us : s32) (sk : sock) :
  exec (tcp_ahs_pkts_acked cnt1 rtt_us ;; tcp_ahs_pkts_acked cnt2 rtt_us) sk =
  exec (tcp_ahs_pkts_acked cnt1 rtt_us) sk.
Proof.
  rewrite exec_bind, !tcp_ahs_pkts_acked_exec. cbn [ca tp snd_ssthresh
    ahs_en if_cong rtt_min rtt ezs_en].
  assert (S : forall a m, sampled_rtt rtt_us
                (mk_ahs (ahs_en a) (if_cong a) m (sampled_rtt rtt_us a)
                        (ezs_en a)) = sampled_rtt rtt_us a).
  { intros a m. unfold sampled_rtt. destruct (0 <? rtt_us); reflexivity. }
  rewrite S, min_idempotent_right. reflexivity.
Qed.

(** ** Facts about the readers of a sequence *)

Lemma samples_of_app (cs1 cs2 : list ops_call) :
  samples_of (cs1 ++ cs2) = samples_of cs1 ++ samples_of cs2.
Proof.
  induction cs1 as [| c cs1 IH]; [reflexivity |].
  destruct c; cbn [app samples_of]; rewrite IH; reflexivity.
Qed.

Lemma list_min_le_base (base : Z) (l : list Z) : list_min base l <= base.
Proof.
  induction l as [| x l IH]; simpl; [lia |]. fold (list_min base l). lia.
Qed.

Lemma list_min_positive (base : Z) (l : list Z) :
  0 < base -> Forall (fun x => 0 < x) l -> 0 < list_min base l.
Proof.
  intros B H. induction H as [| x l Hx _ IH]; simpl; [exact B |].
  fold (list_min base l). lia.
Qed.

Lemma positive_samples_positive (l : list s32) :
  Forall (fun x => 0 < x) (filter (fun r => 0 <? r) l).
Proof.
  apply Forall_forall. intros x Hx. apply filter_In in Hx.
  destruct Hx as [_ Hx]. apply Z.ltb_lt. exact Hx.
Qed.

Lemma last_positive_sample_range (l : list s32) : forall base : Z,
  Forall is_s32 l -> 0 < base < 2 ^ 31 ->
  0 < last_positive_sample base l < 2 ^ 31.
Proof.
  unfold last_positive_sample.
  induction l as [| r l IH]; intros base R B; [exact B |].
  inversion R as [| ? ? Rr Rl]; subst. cbn [fold_left]. apply IH; [exact Rl |].
  destruct (Z.ltb_spec 0 r); [unfold is_s32 in Rr; lia | exact B].
Qed.

Section Traces.

Variable tcp_veno_cong_avoid : u32 -> u32 -> Sk unit.
Hypothesis veno_frame : baseline_frame tcp_veno_cong_avoid.

(** One callback never raises the minimum and never breaks
    [rtt_min <= rtt]. *)
Lemma step_rtt_min_le (c : ops_call) (sk : sock) :
  rtt_min (ca (exec (dispatch tcp_veno_cong_avoid c) sk)) <= rtt_min (ca sk).
Proof.
  rewrite (step_ca tcp_veno_cong_avoid veno_frame).
  destruct c; simpl; try lia. rewrite min_is_Zmin. lia.
Qed.

Lemma step_keeps_order (c : ops_call) (sk : sock) :
  rtt_min (ca sk) <= rtt (ca sk) ->
  rtt_min (ca (exec (dispatch tcp_veno_cong_avoid c) sk)) <=
  rtt (ca (exec (dispatch tcp_veno_cong_avoid c) sk)).
Proof.
  intros O. rewrite (step_ca tcp_veno_cong_avoid veno_frame).
  destruct c; simpl; try exact O. rewrite min_is_Zmin. lia.
Qed.

(** The last sample after a sequence of callbacks, from any socket. *)
Lemma run_rtt (cs : list ops_call) : forall sk : sock,
  Forall is_s32 (samples_of cs) ->
  rtt (ca (exec (run tcp_veno_cong_avoid cs) sk)) =
  last_positive_sample (rtt (ca sk)) (samples_of cs).
Proof.
  induction cs as [| c cs IH]; intros sk R; [reflexivity |].
  rewrite run_cons.
  destruct c; cbn [samples_of] in R |- *;
    try (rewrite IH by exact R;
         rewrite (step_ca tcp_veno_cong_avoid veno_frame); reflexivity).
  inversion R as [| ? ? Rr Rl]; subst.
  rewrite IH by exact Rl.
  rewrite (step_ca tcp_veno_cong_avoid veno_frame). cbn [rtt].
  unfold last_positive_sample at 2. cbn [fold_left].
  fold (last_positive_sample (if 0 <? rtt_us then rtt_us else rtt (ca sk))
                             (samples_of cs)).
  f_equal. unfold sampled_rtt.
  destruct (Z.ltb_spec 0 rtt_us) as [P | P]; [| reflexivity].
  apply to_u32_small, s32_positive_is_u32; assumption.
Qed.

(** The minimum after a sequence of callbacks, from any socket whose minimum
    is not above its last sample. *)
Lemma run_rtt_min (cs : list ops_call) : forall sk : sock,
  Forall is_s32 (samples_of cs) ->
  rtt_min (ca sk) <= rtt (ca sk) ->
  rtt_min (ca (exec (run tcp_veno_cong_avoid cs) sk)) =
  list_min (rtt_min (ca sk)) (filter (fun r => 0 <? r) (samples_of cs)).
Proof.
  induction cs as [| c cs IH]; intros sk R O; [reflexivity |].
  rewrite run_cons.
  destruct c; cbn [samples_of] in R |- *;
    try (rewrite IH by (try exact R; apply step_keeps_order, O);
         rewrite (step_ca tcp_veno_cong_avoid veno_frame); reflexivity).
  inversion R as [| ? ? Rr Rl]; subst.
  rewrite IH by (try exact Rl; apply step_keeps_order, O).
  rewrite (step_ca tcp_veno_cong_avoid veno_frame). cbn [rtt_min filter].
  rewrite min_is_Zmin.
  destruct (Z.ltb_spec 0 rtt_us) as [P | P].
  - rewrite sampled_rtt_positive by assumption.
    rewrite list_min_absorb. reflexivity.
  - rewrite sampled_rtt_nonpositive by assumption. f_equal. lia.
Qed.

(** X5.  Whatever callbacks are interleaved with the acknowledgements, after
    [tcp_ahs_init] and any sequence of callbacks [rtt_min] is the minimum of
    [TCP_AHS_INIT_RTT] and the strictly positive samples [.pkts_acked] was
    given (samples being [s32] values, the baseline leaving the private area
    alone). *)
Theorem connection_rtt_min (cs : list ops_call) (sk0 : sock) :
  Forall is_s32 (samples_of cs) ->
  rtt_min (ca (exec (connection tcp_veno_cong_avoid cs) sk0)) =
  min_positive_sample (samples_of cs).
Proof.
  intros R. unfold connection. rewrite exec_bind, run_rtt_min.
  - rewrite tcp_ahs_init_exec. reflexivity.
  - exact R.
  - rewrite tcp_ahs_init_exec. simpl. lia.
Qed.

(** X6.  After [tcp_ahs_init] and any sequence of callbacks, [rtt] is the
    last strictly positive sample [.pkts_acked] was given, and
    [TCP_AHS_INIT_RTT] when there was none (same provisos). *)
Theorem connection_rtt (cs : list ops_call) (sk0 : sock) :
  Forall is_s32 (samples_of cs) ->
  rtt (ca (exec (connection tcp_veno_cong_avoid cs) sk0)) =
  last_positive_sample TCP_AHS_INIT_RTT (samples_of cs).
Proof.
  intros R. unfold connection. rewrite exec_bind, run_rtt by exact R.
  rewrite tcp_ahs_init_exec. reflexivity.
Qed.

(** X7.  Along any sequence of callbacks, from any socket, [rtt_min] never
    grows: after a longer sequence it is at most what it was after any
    prefix. *)
Theorem rtt_min_nonincreasing (cs1 cs2 : list ops_call) (sk : sock) :
  rtt_min (ca (exec (run tcp_veno_cong_avoid (cs1 ++ cs2)) sk)) <=
  rtt_min (ca (exec (run tcp_veno_cong_avoid cs1) sk)).
Proof.
  rewrite run_app. generalize (exec (run tcp_veno_cong_avoid cs1) sk).
  induction cs2 as [| c cs2 IH]; intros s; [apply Z.le_refl |].
  rewrite run_cons. etransitivity; [apply IH | apply step_rtt_min_le].
Qed.

(** X8.  [tcp_ahs_init] is not needed for [rtt_min <= rtt]: from any socket,
    a sequence of callbacks that contains a [.pkts_acked] call ends with the
    minimum not above the last sample. *)
Theorem order_after_first_ack
  (cs : list ops_call) (cnt : u32) (rtt_us : s32) (sk : sock) :
  In (Call_pkts_acked cnt rtt_us) cs ->
  rtt_min (ca (exec (run tcp_veno_cong_avoid cs) sk)) <=
  rtt (ca (exec (run tcp_veno_cong_avoid cs) sk)).
Proof.
  revert sk. induction cs as [| c cs IH]; intros sk H; [contradiction |].
  rewrite run_cons. destruct H as [E | H]; [| apply IH, H].
  subst c.
  apply (run_preserves tcp_veno_cong_avoid
           (fun s => rtt_min (ca s) <= rtt (ca s))).
  - intros c s. apply step_keeps_order.
  - apply pkts_acked_orders_rtt.
Qed.

(** X9.  In every state of a connection (after [tcp_ahs_init] and any
    sequence of callbacks with [s32] samples) the two estimates are proper
    durations: [0 < rtt_min <= 1000000] and [0 < rtt < 2^31]. *)
Theorem connection_rtt_bounds (cs : list ops_call) (sk0 : sock) :
  Forall is_s32 (samples_of cs) ->
  0 < rtt_min (ca (exec (connection tcp_veno_cong_avoid cs) sk0)) <= 1000000 /\
  0 < rtt (ca (exec (connection tcp_veno_cong_avoid cs) sk0)) < 2 ^ 31.
Proof.
  intros R. unfold connection. rewrite !exec_bind.
  rewrite run_rtt by exact R.
  rewrite run_rtt_min;
    [| exact R | rewrite tcp_ahs_init_exec; simpl; lia].
  rewrite tcp_ahs_init_exec. cbn [ca rtt rtt_min].
  split; [split |].
  - apply list_min_positive;
      [unfold TCP_AHS_INIT_RTT; lia | apply positive_samples_positive].
  - apply (list_min_le_base TCP_AHS_INIT_RTT).
  - apply last_positive_sample_range;
      [exact R | unfold TCP_AHS_INIT_RTT; lia].
Qed.

End Traces.

Lemma connection_rtt_min_witness :
  baseline_frame additive_cong_avoid /\
  Forall is_s32 (samples_of sample_trace) /\
  rtt_min (ca (exec (connection additive_cong_avoid sample_trace) fresh_sock))
  = min_positive_sample (samples_of sample_trace).
Proof.
  assert (F : baseline_frame additive_cong_avoid)
    by (intros ack acked sk; reflexivity).
  assert (R : Forall is_s32 (samples_of sample_trace))
    by (repeat constructor; unfold is_s32; simpl; lia).
  split; [exact F | split; [exact R |]].
  exact (connection_rtt_min additive_cong_avoid F sample_trace fresh_sock R).
Defined.

Lemma connection_rtt_witness :
  baseline_frame additive_cong_avoid /\
  Forall is_s32 (samples_of sample_trace) /\
  rtt (ca (exec (connection additive_cong_avoid sample_trace) fresh_sock))
  = last_positive_sample TCP_AHS_INIT_RTT (samples_of sample_trace).
Proof.
  assert (F : baseline_frame additive_cong_avoid)
    by (intros ack acked sk; reflexivity).
  assert (R : Forall is_s32 (samples_of sample_trace))
    by (repeat constructor; unfold is_s32; simpl; lia).
  split; [exact F | split; [exact R |]].
  exact (connection_rtt additive_cong_avoid F sample_trace fresh_sock R).
Defined.

Lemma rtt_min_nonincreasing_witness :
  baseline_frame additive_cong_avoid /\
  rtt_min (ca (exec (run additive_cong_avoid
                         ([Call_pkts_acked 1 4] ++ sample_trace)) stale_sock))
  <= rtt_min (ca (exec (run additive_cong_avoid [Call_pkts_acked 1 4])
                       stale_sock)).
Proof.
  assert (F : baseline_frame additive_cong_avoid)
    by (intros ack acked sk; reflexivity).
  split; [exact F |].
  exact (rtt_min_nonincreasing additive_cong_avoid F
           [Call_pkts_acked 1 4] sample_trace stale_sock).
Defined.

Lemma order_after_first_ack_witness :
  baseline_frame idle_cong_avoid /\
  In (Call_pkts_acked 1 (-1))
     [Call_set_state 1; Call_pkts_acked 1 (-1); Call_cong_avoid 5 1] /\
  rtt_min (ca (exec (run idle_cong_avoid
     [Call_set_state 1; Call_pkts_acked 1 (-1); Call_cong_avoid 5 1])
     stale_sock)) <=
  rtt (ca (exec (run idle_cong_avoid
     [Call_set_state 1; Call_pkts_acked 1 (-1); Call_cong_avoid 5 1])
     stale_sock)).
Proof.
  assert (F : baseline_frame idle_cong_avoid)
    by (intros ack acked sk; reflexivity).
  assert (I : In (Call_pkts_acked 1 (-1))
     [Call_set_state 1; Call_pkts_acked 1 (-1); Call_cong_avoid 5 1])
    by (simpl; right; left; reflexivity).
  split; [exact F | split; [exact I |]].
  exact (order_after_first_ack idle_cong_avoid F _ 1 (-1) stale_sock I).
Defined.

Lemma connection_rtt_bounds_witness :
  baseline_frame additive_cong_avoid /\
  Forall is_s32 (samples_of sample_trace) /\
  (0 < rtt_min (ca (exec (connection additive_cong_avoid sample_trace)
                         fresh_sock)) <= 1000000 /\
   0 < rtt (ca (exec (connection additive_cong_avoid sample_trace)
                     fresh_sock)) < 2 ^ 31).
Proof.
  assert (F : baseline_frame additive_cong_avoid)
    by (intros ack acked sk; reflexivity).
  assert (R : Forall is_s32 (samples_of sample_trace))
    by (repeat constructor; unfold is_s32; simpl; lia).
  split; [exact F | split; [exact R |]].
  exact (connection_rtt_bounds additive_cong_avoid F sample_trace
           fresh_sock R).
Defined.

(** The stale socket shows why X8 needs the acknowledgement: before any call
    its minimum (5) is above its last sample (2). *)
Example stale_sock_unordered :
  rtt (ca stale_sock) < rtt_min (ca stale_sock).
Proof. simpl. lia. Qed.

(** ** The order of callbacks *)

Lemma samples_of_permutation (cs cs' : list ops_call) :
  Permutation cs cs' -> Permutation (samples_of cs) (samples_of cs').
Proof.
  induction 1 as [| c cs cs' _ IH | c1 c2 cs | cs1 cs2 cs3 _ IH1 _ IH2].
  - constructor.
  - destruct c; cbn [samples_of]; try exact IH. constructor. exact IH.
  - destruct c1, c2; cbn [samples_of]; try apply Permutation_refl.
    apply perm_swap.
  - eapply Permutation_trans; eassumption.
Qed.

Lemma filter_permutation (f : Z -> bool) (l l' : list Z) :
  Permutation l l' -> Permutation (filter f l) (filter f l').
Proof.
  induction 1 as [| x l l' _ IH | x y l | l1 l2 l3 _ IH1 _ IH2].
  - constructor.
  - cbn [filter]. destruct (f x); [constructor |]; exact IH.
  - cbn [filter]. destruct (f x), (f y);
      try apply Permutation_refl. apply perm_swap.
  - eapply Permutation_trans; eassumption.
Qed.

Lemma list_min_permutation (base : Z) (l l' : list Z) :
  Permutation l l' -> list_min base l = list_min base l'.
Proof.
  induction 1 as [| x l l' _ IH | x y l | l1 l2 l3 _ IH1 _ IH2].
  - reflexivity.
  - simpl. fold (list_min base l). fold (list_min base l'). rewrite IH.
    reflexivity.
  - simpl. fold (list_min base l). lia.
  - congruence.
Qed.

Section Order.

Variable tcp_veno_cong_avoid : u32 -> u32 -> Sk unit.
Hypothesis veno_frame : baseline_frame tcp_veno_cong_avoid.

(** X10.  The minimum a connection ends with does not depend on the order in
    which the host made its calls: two sequences that are permutations of
    each other leave the same [rtt_min] (samples being [s32] values, the
    baseline leaving the private area alone). *)
Theorem connection_rtt_min_order (cs cs' : list ops_call) (sk0 sk0' : sock) :
  Permutation cs cs' ->
  Forall is_s32 (samples_of cs) ->
  rtt_min (ca (exec (connection tcp_veno_cong_avoid cs) sk0)) =
  rtt_min (ca (exec (connection tcp_veno_cong_avoid cs') sk0')).
Proof.
  intros HP R.
  assert (PS := samples_of_permutation cs cs' HP).
  assert (R' : Forall is_s32 (samples_of cs'))
    by (eapply Permutation_Forall; [exact PS | exact R]).
  unfold connection. rewrite !exec_bind.
  rewrite !(run_rtt_min tcp_veno_cong_avoid veno_frame);
    try assumption; try (rewrite tcp_ahs_init_exec; simpl; lia).
  rewrite !tcp_ahs_init_exec. cbn [ca rtt_min].
  apply list_min_permutation, filter_permutation, PS.
Qed.

(** [ezs_en] is the same before and after a connection. *)
Lemma connection_ezs_en (cs : list ops_call) (sk0 : sock) :
  ezs_en (ca (exec (connection tcp_veno_cong_avoid cs) sk0)) =
  ezs_en (ca sk0).
Proof.
  unfold connection. rewrite exec_bind.
  apply (run_preserves tcp_veno_cong_avoid
           (fun s => ezs_en (ca s) = ezs_en (ca sk0))).
  - intros c s H. rewrite (step_ca tcp_veno_cong_avoid veno_frame).
    destruct c; simpl; exact H.
  - rewrite tcp_ahs_init_exec. reflexivity.
Qed.

(** X11.  Which branch [tcp_ahs_cong_avoid] takes is settled before
    [tcp_ahs_init] runs and no sequence of callbacks changes it: at any point
    of a connection the call goes to the baseline when the socket started
    with [ezs_en = 0] and forces the window otherwise ([tcp_ahs_state] and
    [tcp_ahs_init] have no say in it). *)
Theorem cong_avoid_branch_fixed
  (cs : list ops_call) (ack acked : u32) (sk0 : sock) :
  runState (tcp_ahs_cong_avoid tcp_veno_cong_avoid ack acked)
           (exec (connection tcp_veno_cong_avoid cs) sk0) =
  if ezs_en (ca sk0) =? 0 then
    runState (tcp_veno_cong_avoid ack acked)
             (exec (connection tcp_veno_cong_avoid cs) sk0)
  else
    (tt, mk_sock
           (mk_tcp_sock 65000
              (snd_ssthresh
                 (tp (exec (connection tcp_veno_cong_avoid cs) sk0))))
           (ca (exec (connection tcp_veno_cong_avoid cs) sk0))).
Proof.
  destruct (Z.eqb_spec (ezs_en (ca sk0)) 0) as [E | E].
  - apply tcp_ahs_cong_avoid_veno. rewrite connection_ezs_en. exact E.
  - apply tcp_ahs_cong_avoid_static. rewrite connection_ezs_en. exact E.
Qed.

End Order.

Lemma connection_rtt_min_order_witness :
  baseline_frame additive_cong_avoid /\
  Permutation sample_trace (rev sample_trace) /\
  Forall is_s32 (samples_of sample_trace) /\
  rtt_min (ca (exec (connection additive_cong_avoid sample_trace) fresh_sock))
  = rtt_min (ca (exec (connection additive_cong_avoid (rev sample_trace))
                      stale_sock)).
Proof.
  assert (F : baseline_frame additive_cong_avoid)
    by (intros ack acked sk; reflexivity).
  assert (P : Permutation sample_trace (rev sample_trace))
    by (apply Permutation_rev).
  assert (R : Forall is_s32 (samples_of sample_trace))
    by (repeat constructor; unfold is_s32; simpl; lia).
  split; [exact F | split; [exact P | split; [exact R |]]].
  exact (connection_rtt_min_order additive_cong_avoid F
           sample_trace (rev sample_trace) fresh_sock stale_sock P R).
Defined.

Lemma cong_avoid_branch_fixed_witness :
  baseline_frame additive_cong_avoid /\
  runState (tcp_ahs_cong_avoid additive_cong_avoid 300 2)
           (exec (connection additive_cong_avoid sample_trace) fresh_sock) =
  runState (additive_cong_avoid 300 2)
           (exec (connection additive_cong_avoid sample_trace) fresh_sock).
Proof.
  assert (F : baseline_frame additive_cong_avoid)
    by (intros ack acked sk; reflexivity).
  split; [exact F |].
  exact (cong_avoid_branch_fixed additive_cong_avoid F
           sample_trace 300 2 fresh_sock).
Defined.

(** ** Sockets on which the baseline is never consulted *)

(** With [ezs_en] set, one callback does the same under any two baselines,
    keeps [ezs_en], writes 65000 to the window if it writes it at all and
    leaves the threshold alone. *)
Lemma step_static (v1 v2 : u32 -> u32 -> Sk unit) (c : ops_call) (sk : sock) :
  ezs_en (ca sk) <> 0 ->
  exec (dispatch v1 c) sk = exec (dispatch v2 c) sk /\
  ezs_en (ca (exec (dispatch v1 c) sk)) = ezs_en (ca sk) /\
  tp (exec (dispatch v1 c) sk) =
  mk_tcp_sock (if writes_window c then 65000 else snd_cwnd (tp sk))
              (snd_ssthresh (tp sk)).
Proof.
  intros E. destruct c; cbn [dispatch writes_window].
  - destruct sk as [[w t] a]. repeat split.
  - unfold exec, execState.
    rewrite !tcp_ahs_cong_avoid_static by exact E. repeat split.
  - repeat split.
  - rewrite tcp_ahs_pkts_acked_exec. repeat split.
  - destruct sk as [[w t] a]. repeat split.
  - destruct sk as [[w t] a]. repeat split.
Qed.

Lemma run_static (v1 v2 : u32 -> u32 -> Sk unit) (cs : list ops_call) :
  forall sk : sock,
  ezs_en (ca sk) <> 0 ->
  exec (run v1 cs) sk = exec (run v2 cs) sk /\
  tp (exec (run v1 cs) sk) =
  mk_tcp_sock (if existsb writes_window cs then 65000 else snd_cwnd (tp sk))
              (snd_ssthresh (tp sk)).
Proof.
  induction cs as [| c cs IH]; intros sk E.
  - destruct sk as [[w t] a]. split; reflexivity.
  - destruct (step_static v1 v2 c sk E) as (S1 & S2 & S3).
    assert (E' : ezs_en (ca (exec (dispatch v1 c) sk)) <> 0)
      by (rewrite S2; exact E).
    destruct (IH _ E') as (I1 & I2).
    rewrite !run_cons. split.
    + rewrite I1, S1. reflexivity.
    + rewrite I2, S3. cbn [existsb snd_cwnd snd_ssthresh].
      destruct (writes_window c); cbn [orb]; [| reflexivity].
      destruct (existsb writes_window cs); reflexivity.
Qed.

(** X12.  On a socket with [ezs_en] set the baseline is dead code: any
    sequence of callbacks, and any whole connection, ends in the same socket
    whatever function stands for [tcp_veno_cong_avoid]. *)
Theorem baseline_never_consulted
  (v1 v2 : u32 -> u32 -> Sk unit) (cs : list ops_call) (sk : sock) :
  ezs_en (ca sk) <> 0 ->
  exec (run v1 cs) sk = exec (run v2 cs) sk /\
  exec (connection v1 cs) sk = exec (connection v2 cs) sk.
Proof.
  intros E. split; [apply run_static, E |].
  unfold connection. rewrite !exec_bind. apply run_static.
  rewrite tcp_ahs_init_exec. exact E.
Qed.

Lemma baseline_never_consulted_witness :
  ezs_en (ca stale_sock) <> 0 /\
  exec (run additive_cong_avoid sample_trace) stale_sock =
  exec (run idle_cong_avoid sample_trace) stale_sock /\
  exec (connection additive_cong_avoid sample_trace) stale_sock =
  exec (connection idle_cong_avoid sample_trace) stale_sock.
Proof.
  assert (E : ezs_en (ca stale_sock) <> 0) by (simpl; lia).
  split; [exact E |].
  exact (baseline_never_consulted additive_cong_avoid idle_cong_avoid
           sample_trace stale_sock E).
Defined.

(** X13.  On a socket with [ezs_en] set, the window fields after any sequence
    of callbacks are known: [snd_cwnd] is 65000 once [.cong_avoid],
    [.cwnd_event] or [.pkts_acked] was called and the host's value until
    then ([.ssthresh], [.set_state] and [.undo_cwnd] do not write it), and
    [snd_ssthresh] is never written. *)
Theorem window_fields_after_run
  (veno : u32 -> u32 -> Sk unit) (cs : list ops_call) (sk : sock) :
  ezs_en (ca sk) <> 0 ->
  tp (exec (run veno cs) sk) =
  mk_tcp_sock (if existsb writes_window cs then 65000 else snd_cwnd (tp sk))
              (snd_ssthresh (tp sk)).
Proof. intros E. apply (run_static veno veno cs sk E). Qed.

Lemma window_fields_after_run_witness :
  ezs_en (ca stale_sock) <> 0 /\
  tp (exec (run additive_cong_avoid sample_trace) stale_sock) =
  mk_tcp_sock
    (if existsb writes_window sample_trace
     then 65000 else snd_cwnd (tp stale_sock))
    (snd_ssthresh (tp stale_sock)).
Proof.
  assert (E : ezs_en (ca stale_sock) <> 0) by (simpl; lia).
  split; [exact E |].
  exact (window_fields_after_run additive_cong_avoid
           sample_trace stale_sock E).
Defined.

(** ** Any baseline, any history *)

(** X14.  Whatever the baseline does and whatever came before, a sequence of
    callbacks that ends with [.pkts_acked] or [.cwnd_event] ends with the
    window at 65000. *)
Theorem window_pinned_by_last_call
  (veno : u32 -> u32 -> Sk unit) (cs : list ops_call) (sk : sock) :
  (forall cnt rtt_us,
     snd_cwnd (tp (exec (run veno (cs ++ [Call_pkts_acked cnt rtt_us]) ) sk))
     = 65000) /\
  (forall event,
     snd_cwnd (tp (exec (run veno (cs ++ [Call_cwnd_event event])) sk))
     = 65000).
Proof.
  split; intros; rewrite run_app, run_cons; cbn [dispatch run].
  - rewrite exec_ret. apply pkts_acked_forces_window.
  - rewrite exec_ret. apply cwnd_event_forces_window.
Qed.

(** [tcp_ahs_init] itself does not open the window: a connection on which no
    callback ran yet has the host's window, and so has one on which only
    [.ssthresh], [.set_state] and [.undo_cwnd] ran. *)
Example window_not_forced_by_init :
  snd_cwnd (tp (exec (connection idle_cong_avoid
                        [Call_ssthresh; Call_set_state 1; Call_undo_cwnd])
                     fresh_sock)) = 10.
Proof. reflexivity. Qed.

(** ** Initialising again *)

Section Reinit.

Variable tcp_veno_cong_avoid : u32 -> u32 -> Sk unit.
Hypothesis veno_frame : baseline_frame tcp_veno_cong_avoid.

Lemma run_ezs_en (cs : list ops_call) (sk : sock) :
  ezs_en (ca (exec (run tcp_veno_cong_avoid cs) sk)) = ezs_en (ca sk).
Proof.
  apply (run_preserves tcp_veno_cong_avoid
           (fun s => ezs_en (ca s) = ezs_en (ca sk))); [| reflexivity].
  intros c s H. rewrite (step_ca tcp_veno_cong_avoid veno_frame).
  destruct c; simpl; exact H.
Qed.

(** X15.  [tcp_ahs_init] forgets the history: run after any sequence of
    callbacks it leaves the private area it would have left on the socket
    the sequence started from, and it hands the window fields on as the
    sequence left them. *)
Theorem init_forgets_history (cs : list ops_call) (sk : sock) :
  ca (exec (run tcp_veno_cong_avoid cs ;; tcp_ahs_init) sk) =
  ca (exec tcp_ahs_init sk) /\
  tp (exec (run tcp_veno_cong_avoid cs ;; tcp_ahs_init) sk) =
  tp (exec (run tcp_veno_cong_avoid cs) sk).
Proof.
  rewrite exec_bind, !tcp_ahs_init_exec. cbn [ca tp].
  rewrite run_ezs_en. split; reflexivity.
Qed.

End Reinit.

Lemma init_forgets_history_witness :
  baseline_frame additive_cong_avoid /\
  ca (exec (run additive_cong_avoid sample_trace ;; tcp_ahs_init) stale_sock) =
  ca (exec tcp_ahs_init stale_sock) /\
  tp (exec (run additive_cong_avoid sample_trace ;; tcp_ahs_init) stale_sock) =
  tp (exec (run additive_cong_avoid sample_trace) stale_sock).
Proof.
  assert (F : baseline_frame additive_cong_avoid)
    by (intros ack acked sk; reflexivity).
  split; [exact F |].
  exact (init_forgets_history additive_cong_avoid F sample_trace stale_sock).
Defined.
